(** * raiden/storage/sqlite.py: the SQLite-backed store of state changes,
      snapshots and events

    A shallow embedding of [SQLiteStorage] and [SerializedSQLiteStorage].
    The database file is a record of tables, the [sqlite3] connection is a
    record holding the current content, the journal of the open SQL
    transaction (if any) and the Python flag [in_transaction]; every method
    is a function in a state-and-exception monad over that connection.

    What the embedding takes from the engine rather than from the Python
    source is collected in the modules [Engine] and [Sql] below and is
    limited to: implicit transactions of the [sqlite3] module, the
    connection used as a context manager, BEGIN / COMMIT / ROLLBACK, row
    identifiers, the foreign keys of the schema, WHERE / ORDER BY / LIMIT /
    OFFSET, comparison of SQL values, and the fragment of the SQL grammar
    the two dynamically built queries fall in.  The write lock is not
    modelled: the embedding is sequential. *)

From Stdlib Require Import ZArith Lia Ascii String.
From stdpp Require Import base option list sorting gmap strings pretty.

Local Open Scope string_scope.
Local Open Scope Z_scope.
Set Warnings "-register-all".

(** ** Python values and exceptions *)

(** The dynamically typed values the methods receive as identifiers, limits
    and filter values.  A finite float is [m * 2^e]. *)
Inductive pyval : Type :=
  | PyNone
  | PyBool (b : bool)
  | PyInt (z : Z)
  | PyFloat (m e : Z)
  | PyStr (s : string)
  | PyTuple (items : list pyval).

(** The exceptions the module raises or lets through; all of them derive
    from [Exception].  [RaisedByCaller] stands for whatever the code inside
    a [with storage.transaction():] block raises itself. *)
Inductive exn : Type :=
  | ValueError (msg : string)
  | AssertionError
  | InvalidNumberInput (msg : string)
  | InvalidDBData (msg : string)
  | OperationalError (msg : string)
  | IntegrityError (msg : string)
  | InterfaceError (msg : string)
  | ProgrammingError (msg : string)
  | RaisedByCaller (name : string).

(** [x == 'latest'] *)
Definition eq_latest (x : pyval) : bool :=
  match x with
  | PyStr s => String.eqb s "latest"
  | _ => false
  end.

(** [isinstance(x, int)]; [bool] is a subclass of [int]. *)
Definition isinstance_int (x : pyval) : bool :=
  match x with
  | PyInt _ | PyBool _ => true
  | _ => false
  end.

(** [x is None] *)
Definition is_none (x : pyval) : bool :=
  match x with
  | PyNone => true
  | _ => false
  end.

(** [x < 0] on the values for which the source evaluates it, the instances
    of [int]: [isinstance] is tested first and [or] does not evaluate its
    second operand when the first holds. *)
Definition lt_zero (x : pyval) : bool :=
  match x with
  | PyInt z => z <? 0
  | _ => false
  end.

(** [int(s)] on the text of an integer literal: an optional sign and
    decimal digits.  Surrounding blanks and digit-group underscores, which
    Python also accepts, are never written by this module and are refused
    here. *)
Definition digit_of (c : Ascii.ascii) : option Z :=
  let n := Z.of_N (Ascii.N_of_ascii c) in
  if (48 <=? n) && (n <=? 57) then Some (n - 48) else None.

Fixpoint digits_value (acc : Z) (s : string) : option Z :=
  match s with
  | EmptyString => Some acc
  | String c s' =>
      match digit_of c with
      | Some d => digits_value (10 * acc + d) s'
      | None => None
      end
  end.

Definition unsigned_value (s : string) : option Z :=
  match s with
  | EmptyString => None
  | _ => digits_value 0 s
  end.

Definition py_int (s : string) : option Z :=
  match s with
  | String "-"%char s' => Z.opp <$> unsigned_value s'
  | String "+"%char s' => unsigned_value s'
  | _ => unsigned_value s
  end.

(** ** The persisted schema *)

Record state_change_row : Type := StateChangeRow {
  sc_identifier : Z;
  sc_data : string;
  sc_log_time : string
}.

Record snapshot_row : Type := SnapshotRow {
  snap_identifier : Z;
  snap_statechange_id : Z;
  snap_data : string
}.

Record event_row : Type := EventRow {
  ev_identifier : Z;
  ev_source_statechange_id : Z;
  ev_log_time : string;
  ev_data : string
}.

(** [settings] has [name] as primary key, hence a finite map; the other
    tables are kept as the list of their rows. *)
Record database : Type := Database {
  settings : gmap string string;
  runs : list string;
  state_changes : list state_change_row;
  state_snapshot : list snapshot_row;
  state_events : list event_row
}.

Definition empty_database : database :=
  Database ∅ [] [] [] [].

(** The [sqlite3] connection together with the attributes of the storage
    object.  [journal = Some d] when an SQL transaction is open, [d] being
    the content the transaction started from; [journal = None] is
    autocommit mode. *)
Record connection : Type := Connection {
  db : database;
  journal : option database;
  in_transaction : bool
}.

(** ** State and exception monad *)

Definition M (A : Type) : Type := connection → (exn + A) * connection.

Definition ret {A} (a : A) : M A := λ c, (inr a, c).
Definition raise {A} (e : exn) : M A := λ c, (inl e, c).
Definition bind {A B} (m : M A) (k : A → M B) : M B :=
  λ c, match m c with
       | (inr a, c') => k a c'
       | (inl e, c') => (inl e, c')
       end.

Notation "'let*' x ':=' m 'in' k" := (bind m (λ x, k))
  (at level 10, x pattern, m at level 100, k at level 200).
Notation "m ';;' k" := (bind m (λ _, k))
  (at level 100, k at level 200, right associativity).

(** [try: m except Exception as e: h e] *)
Definition try_except {A} (m : M A) (h : exn → M A) : M A :=
  λ c, match m c with
       | (inr a, c') => (inr a, c')
       | (inl e, c') => h e c'
       end.

(** [try: m finally: f]; an exception of [f] replaces the pending one. *)
Definition try_finally {A} (m : M A) (f : M unit) : M A :=
  λ c, match m c with
       | (r, c') =>
           match f c' with
           | (inr _, c'') => (r, c'')
           | (inl e, c'') => (inl e, c'')
           end
       end.

(** ** The engine: SQL values, clauses, transactions *)

Module Sql.

(** Storage classes of the values bound to placeholders and read from
    rows (no BLOB is ever bound by this module). *)
Inductive value : Type :=
  | Null
  | Integer (z : Z)
  | Real (m e : Z)
  | Text (s : string).

(** How the [sqlite3] module adapts a Python argument; a tuple is not a
    supported type. *)
Definition adapted (v : pyval) : option value :=
  match v with
  | PyNone => Some Null
  | PyBool b => Some (Integer (Z.b2z b))
  | PyInt z => Some (Integer z)
  | PyFloat m e => Some (Real m e)
  | PyStr s => Some (Text s)
  | PyTuple _ => None
  end.

Definition adapt (position : Z) (v : pyval) : exn + value :=
  match adapted v with
  | Some x => inr x
  | None =>
      inl (InterfaceError
             ("Error binding parameter " +:+ pretty position +:+
              " - probably unsupported type."))
  end.

(** [m1 * 2^e1] against [m2 * 2^e2]. *)
Definition compare_dyadic (m1 e1 m2 e2 : Z) : comparison :=
  let e := Z.min e1 e2 in
  (m1 * 2 ^ (e1 - e) ?= m2 * 2 ^ (e2 - e)).

(** Comparison of two values: anything against NULL is unknown, numbers
    compare by value, every number is below every text, texts compare
    byte-wise.  (A text that spells a number would first be converted
    when the other side is an integer column; no such text reaches a
    placeholder here, the callers test [isinstance(_, int)] first.) *)
Definition compare (a b : value) : option comparison :=
  match a, b with
  | Null, _ | _, Null => None
  | Integer x, Integer y => Some (x ?= y)
  | Integer x, Real m e => Some (compare_dyadic x 0 m e)
  | Real m e, Integer y => Some (compare_dyadic m e y 0)
  | Real m e, Real m' e' => Some (compare_dyadic m e m' e')
  | (Integer _ | Real _ _), Text _ => Some Lt
  | Text _, (Integer _ | Real _ _) => Some Gt
  | Text s, Text t => Some (String.compare s t)
  end.

(** The operators [=], [<=], [>=] and [AND] in three-valued logic:
    [None] is NULL (unknown). *)
Definition eq (a b : value) : option bool :=
  (λ c, match c with Eq => true | _ => false end) <$> compare a b.
Definition le (a b : value) : option bool :=
  (λ c, match c with Gt => false | _ => true end) <$> compare a b.
Definition ge (a b : value) : option bool := le b a.
Definition and3 (p q : option bool) : option bool :=
  match p, q with
  | Some false, _ | _, Some false => Some false
  | Some true, Some true => Some true
  | _, _ => None
  end.
(** [x BETWEEN lo AND hi] is [x >= lo AND x <= hi]. *)
Definition between (x lo hi : value) : option bool :=
  and3 (ge x lo) (le x hi).

(** [WHERE cond]: the rows on which the condition is true (neither false
    nor unknown). *)
Definition where_ {A} (cond : A → option bool) (rows : list A) : list A :=
  filter (λ r, cond r = Some true) rows.

(** [ORDER BY key ASC] and [ORDER BY key DESC] on an integer column. *)
Definition order_by_asc {A} (key : A → Z) (rows : list A) : list A :=
  merge_sort (H := λ a b, decide (key a ≤ key b)) (λ a b, key a ≤ key b) rows.
Definition order_by_desc {A} (key : A → Z) (rows : list A) : list A :=
  merge_sort (H := λ a b, decide (key b ≤ key a)) (λ a b, key b ≤ key a) rows.

(** [LIMIT n OFFSET k]: a negative limit is no limit, a negative offset
    is no offset.  (Both must be integers, anything else is a datatype
    mismatch.) *)
Definition limit_offset {A} (n k : Z) (rows : list A) : list A :=
  let rest := drop (Z.to_nat k) rows in
  if n <? 0 then rest else take (Z.to_nat n) rest.

(** The identifier an INSERT without explicit identifier receives: one
    more than the largest in use, 1 in an empty table. *)
Definition next_identifier (used : list Z) : Z :=
  foldr Z.max 0 used + 1.

(** *** The statements built at run time

    The two "latest match" queries assemble their text from the filters.
    The engine parses [head WHERE expr ORDER BY identifier DESC LIMIT 1]
    where [expr] is one or more comparisons [json_extract(data, ?)=?]
    joined by AND; blanks between tokens are free, and a placeholder [?]
    ends at the first character that is not a digit.  WHERE must be
    followed by an expression. *)

Fixpoint strip_prefix (p s : string) : option string :=
  match p with
  | EmptyString => Some s
  | String a p' =>
      match s with
      | String b s' => if Ascii.eqb a b then strip_prefix p' s' else None
      | EmptyString => None
      end
  end.

Fixpoint skip_blanks (s : string) : string :=
  match s with
  | String c s' => if Ascii.eqb c " " then skip_blanks s' else s
  | EmptyString => s
  end.

Definition json_comparison : string := "json_extract(data, ?)=?".

(** [expr ::= comparison | comparison AND expr]; gives the number of
    comparisons and the text left after the expression. *)
Fixpoint parse_conjunction (fuel : nat) (s : string) : option (nat * string) :=
  match fuel with
  | O => None
  | S fuel' =>
      match strip_prefix json_comparison (skip_blanks s) with
      | None => None
      | Some rest =>
          match strip_prefix "AND" (skip_blanks rest) with
          | None => Some (1%nat, rest)
          | Some rest' =>
              match parse_conjunction fuel' rest' with
              | Some (n, tail) => Some (S n, tail)
              | None => None
              end
          end
      end
  end.

(** The number of comparisons of a well-formed statement, [None] on a
    syntax error. *)
Definition prepare (head sql : string) : option nat :=
  match strip_prefix (head +:+ "WHERE") sql with
  | None => None
  | Some rest =>
      match parse_conjunction (String.length rest) rest with
      | Some (n, tail) =>
          if String.eqb (skip_blanks tail) "ORDER BY identifier DESC LIMIT 1"
          then Some n else None
      | None => None
      end
  end.

(** The placeholders of the expression take the arguments two by two:
    the path, then the value compared with what is found there. *)
Fixpoint pair_up (args : list value) : list (value * value) :=
  match args with
  | path :: v :: rest => (path, v) :: pair_up rest
  | _ => []
  end.

End Sql.

Module Engine.

(** A SELECT reads the current content and leaves the connection as it
    is. *)
Definition select {A} (q : database → A) : M A :=
  λ c, (inr (q (db c)), c).

(** Before INSERT, UPDATE, DELETE and REPLACE the [sqlite3] module opens
    a transaction when none is open (the default isolation level). *)
Definition begin_if_autocommit : M unit :=
  λ c, match journal c with
       | None => (inr (), Connection (db c) (Some (db c)) (in_transaction c))
       | Some _ => (inr (), c)
       end.

Definition modify (f : database → database) : M unit :=
  λ c, (inr (), Connection (f (db c)) (journal c) (in_transaction c)).

(** A data-modifying statement. *)
Definition dml (f : database → database) : M unit :=
  begin_if_autocommit ;; modify f.

(** [conn.commit()]: ends the open transaction, if any. *)
Definition commit : M unit :=
  λ c, (inr (), Connection (db c) None (in_transaction c)).

(** [conn.rollback()]: restores the content the open transaction started
    from, if any. *)
Definition rollback : M unit :=
  λ c, (inr (), Connection (default (db c) (journal c)) None (in_transaction c)).

(** [cursor.execute('BEGIN')], [('COMMIT')], [('ROLLBACK')]: the SQL
    statements themselves, which the engine refuses in the wrong mode. *)
Definition execute_BEGIN : M unit :=
  λ c, match journal c with
       | None => (inr (), Connection (db c) (Some (db c)) (in_transaction c))
       | Some _ =>
           (inl (OperationalError
                   "cannot start a transaction within a transaction"), c)
       end.

Definition execute_COMMIT : M unit :=
  λ c, match journal c with
       | Some _ => commit c
       | None =>
           (inl (OperationalError
                   "cannot commit - no transaction is active"), c)
       end.

Definition execute_ROLLBACK : M unit :=
  λ c, match journal c with
       | Some _ => rollback c
       | None =>
           (inl (OperationalError
                   "cannot rollback - no transaction is active"), c)
       end.

(** Binding of the arguments of a statement, in order; the first one of
    an unsupported type raises. *)
Fixpoint adapt_all (position : Z) (args : list pyval) : exn + list Sql.value :=
  match args with
  | [] => inr []
  | a :: rest =>
      match Sql.adapt position a with
      | inl e => inl e
      | inr v =>
          match adapt_all (position + 1) rest with
          | inl e => inl e
          | inr vs => inr (v :: vs)
          end
      end
  end.

(** [cursor.execute(sql, args)] for a SELECT with a list of arguments,
    with one and with two placeholders. *)
Definition select_with {A} (args : list pyval)
    (q : list Sql.value → database → A) : M A :=
  match adapt_all 0 args with
  | inl e => raise e
  | inr vs => select (q vs)
  end.

(** The rows of a statement the engine accepted, its error otherwise. *)
Definition fetchall {A} (cursor : exn + A) : M A :=
  match cursor with
  | inl e => raise e
  | inr rows => ret rows
  end.

Definition select_with1 {A} (a : pyval) (q : Sql.value → database → A) : M A :=
  match Sql.adapt 0 a with
  | inl e => raise e
  | inr v => select (q v)
  end.

Definition select_with2 {A} (a b : pyval)
    (q : Sql.value → Sql.value → database → A) : M A :=
  match Sql.adapt 0 a with
  | inl e => raise e
  | inr v =>
      match Sql.adapt 1 b with
      | inl e => raise e
      | inr w => select (q v w)
      end
  end.

(** [with conn: body]: the connection as a context manager commits when
    the body ends normally, rolls back and lets the exception through
    when it raises. *)
Definition with_conn {A} (body : M A) : M A :=
  λ c, match body c with
       | (inr a, c') => (commit ;; ret a) c'
       | (inl e, c') => (rollback ;; raise e) c'
       end.

End Engine.

(** ** class SQLiteStorage *)

(** The latest DB version *)
Definition RAIDEN_DB_VERSION : Z := 18.

(** The [data] of a record is a payload for the raw storage and a domain
    object for the serialized one, [None] in both when nothing was found. *)
Record EventRecord (A : Type) : Type := mkEventRecord {
  event_identifier : Z;
  event_state_change_identifier : Z;
  event_data : option A
}.
Arguments mkEventRecord {A} _ _ _.
Arguments event_identifier {A} _.
Arguments event_state_change_identifier {A} _.
Arguments event_data {A} _.

Record StateChangeRecord (A : Type) : Type := mkStateChangeRecord {
  state_change_identifier : Z;
  state_change_data : option A
}.
Arguments mkStateChangeRecord {A} _ _.
Arguments state_change_identifier {A} _.
Arguments state_change_data {A} _.

Record SnapshotRecord : Type := mkSnapshotRecord {
  snapshot_identifier : Z;
  snapshot_state_change_identifier : Z;
  snapshot_data : string
}.

(** [raiden.storage.utils.TimestampedEvent], a named tuple. *)
Record TimestampedEvent (A : Type) : Type := mkTimestampedEvent {
  wrapped_event : A;
  log_time : string
}.
Arguments mkTimestampedEvent {A} _ _.
Arguments wrapped_event {A} _.
Arguments log_time {A} _.

Module SQLiteStorage.

Definition set_in_transaction (b : bool) : M unit :=
  λ c, (inr (), Connection (db c) (journal c) b).

Definition maybe_commit : M unit :=
  λ c, if in_transaction c then (inr (), c) else Engine.commit c.

(** INSERT OR REPLACE INTO settings(name, value) VALUES(?, ?) *)
Definition update_version : M unit :=
  Engine.dml (λ d,
    Database (<["version" := pretty RAIDEN_DB_VERSION]> (settings d))
             (runs d) (state_changes d) (state_snapshot d) (state_events d)) ;;
  maybe_commit.


(** SELECT value FROM settings WHERE name=?; *)
Definition get_version : M Z :=
  let* query := Engine.select (λ d, option_list (settings d !! "version")) in
  match query with
  | [] => ret RAIDEN_DB_VERSION
  | value :: _ =>
      match py_int value with
      | Some v => ret v
      | None =>
          raise (ValueError ("invalid literal for int() with base 10: '"
                             +:+ value +:+ "'"))
      end
  end.

(** SELECT COUNT(1) FROM state_changes *)
Definition count_state_changes : M Z :=
  let* query := Engine.select (λ d, [Z.of_nat (length (state_changes d))]) in
  match query with
  | [] => ret 0
  | n :: _ => ret n
  end.

(** INSERT INTO state_changes(identifier, data, log_time)
    VALUES(null, ?, ?); the result is [cursor.lastrowid]. *)
Definition insert_state_change (data log_time : string) : M Z :=
  let* last_id :=
    Engine.select (λ d, Sql.next_identifier (sc_identifier <$> state_changes d)) in
  Engine.dml (λ d,
    Database (settings d) (runs d)
             (state_changes d ++ [StateChangeRow last_id data log_time])
             (state_snapshot d) (state_events d)) ;;
  ret last_id.

Definition write_state_change (state_change log_time : string) : M Z :=
  Engine.with_conn (
    let* last_id := insert_state_change state_change log_time in
    ret last_id).

(** INSERT INTO state_snapshot(statechange_id, data) VALUES(?, ?); the
    foreign key on [statechange_id] is enforced. *)
Definition insert_state_snapshot (statechange_id : Z) (data : string) : M Z :=
  Engine.begin_if_autocommit ;;
  let* known := Engine.select (λ d, sc_identifier <$> state_changes d) in
  if decide (statechange_id ∈ known) then
    let* last_id :=
      Engine.select (λ d, Sql.next_identifier (snap_identifier <$> state_snapshot d)) in
    Engine.modify (λ d,
      Database (settings d) (runs d) (state_changes d)
               (state_snapshot d ++ [SnapshotRow last_id statechange_id data])
               (state_events d)) ;;
    ret last_id
  else raise (IntegrityError "FOREIGN KEY constraint failed").

Definition write_state_snapshot (statechange_id : Z) (snapshot : string) : M Z :=
  Engine.with_conn (
    let* last_id := insert_state_snapshot statechange_id snapshot in
    ret last_id).

(** INSERT INTO state_events(identifier, source_statechange_id, log_time,
    data) VALUES(?, ?, ?, ?), once per tuple of [events]; an identifier
    of [None] lets the engine choose.  The primary key and the foreign
    key are enforced. *)
Definition insert_state_event
    (event : option Z * Z * string * string) : M unit :=
  let '(identifier, source_statechange_id, log_time, data) := event in
  let* used := Engine.select (λ d, ev_identifier <$> state_events d) in
  let* known := Engine.select (λ d, sc_identifier <$> state_changes d) in
  let new_id := default (Sql.next_identifier used) identifier in
  if decide (new_id ∈ used) then
    raise (IntegrityError "UNIQUE constraint failed: state_events.identifier")
  else if decide (source_statechange_id ∈ known) then
    Engine.modify (λ d,
      Database (settings d) (runs d) (state_changes d) (state_snapshot d)
               (state_events d ++
                  [EventRow new_id source_statechange_id log_time data]))
  else raise (IntegrityError "FOREIGN KEY constraint failed").

Fixpoint executemany_insert_state_events
    (events : list (option Z * Z * string * string)) : M unit :=
  match events with
  | [] => ret ()
  | e :: rest => insert_state_event e ;; executemany_insert_state_events rest
  end.

Definition write_events (state_change_identifier : Z)
    (events : list (option Z * Z * string * string)) (log_time : string) : M unit :=
  Engine.with_conn (
    Engine.begin_if_autocommit ;;
    executemany_insert_state_events events).

(** SELECT statechange_id, data from state_snapshot
    ORDER BY identifier DESC LIMIT 1 *)
Definition get_latest_state_snapshot : M (option (Z * string)) :=
  let* rows := Engine.select (λ d,
    Sql.limit_offset 1 0 (Sql.order_by_desc snap_identifier (state_snapshot d))) in
  match rows with
  | row :: _ => ret (Some (snap_statechange_id row, snap_data row))
  | [] => ret None
  end.

(** SELECT identifier FROM state_changes ORDER BY identifier DESC LIMIT 1,
    then [cursor.fetchone()]. *)
Definition fetch_latest_state_change_identifier : M (option Z) :=
  Engine.select (λ d,
    head (sc_identifier <$>
          Sql.limit_offset 1 0 (Sql.order_by_desc sc_identifier (state_changes d)))).

(** Get snapshots earlier than state_change with provided ID.

    SELECT statechange_id, data FROM state_snapshot
    WHERE statechange_id <= ? ORDER BY identifier DESC LIMIT 1 *)
Definition get_snapshot_closest_to_state_change
    (state_change_identifier : pyval) : M (Z * option string) :=
  if negb (eq_latest state_change_identifier
           || isinstance_int state_change_identifier) then
    raise (ValueError "from_identifier must be an integer or 'latest'")
  else
    let* state_change_identifier :=
      (if eq_latest state_change_identifier then
         let* result := fetch_latest_state_change_identifier in
         match result with
         | Some identifier => ret (PyInt identifier)
         | None => ret (PyInt 0)
         end
       else ret state_change_identifier) in
    let* rows := Engine.select_with1 state_change_identifier (λ bound d,
      Sql.limit_offset 1 0
        (Sql.order_by_desc snap_identifier
           (Sql.where_ (λ r, Sql.le (Sql.Integer (snap_statechange_id r)) bound)
              (state_snapshot d)))) in
    match rows with
    | row :: _ => ret (snap_statechange_id row, Some (snap_data row))
    | [] => ret (0, None)
    end.

Section filters.

(** The engine's [json_extract(data, path)]: the value found in the
    JSON text [data] at [path], NULL when the path leads nowhere.
    Payloads are taken to be well-formed JSON, as the serializer writes
    them. *)
Context (json_extract : string → string → Sql.value).

Definition extract (data : string) (path : Sql.value) : Sql.value :=
  match path with
  | Sql.Text p => json_extract data p
  | _ => Sql.Null
  end.

(** The condition [c1 AND ... AND cn] on one row. *)
Definition matches (bindings : list (Sql.value * Sql.value))
    (data : string) : option bool :=
  foldr Sql.and3 (Some true)
    ((λ '(path, v), Sql.eq (extract data path) v) <$> bindings).

(** [cursor.execute(sql, args)] for the statements built from filters:
    syntax first, then the number of arguments, then their types. *)
Definition execute_latest_matching {R} (head : string)
    (table : database → list R) (ident : R → Z) (data : R → string)
    (sql : string) (args : list pyval) : M (list R) :=
  match Sql.prepare head sql with
  | None => raise (OperationalError "syntax error")
  | Some n =>
      if negb (length args =? 2 * n)%nat then
        raise (ProgrammingError "Incorrect number of bindings supplied.")
      else
        Engine.select_with args (λ vs d,
          Sql.limit_offset 1 0
            (Sql.order_by_desc ident
               (Sql.where_ (λ r, matches (Sql.pair_up vs) (data r))
                  (table d))))
  end.

(** The loop over [filters.items()] appends one clause and two
    arguments per item. *)
Definition where_clauses_of (filters : list (string * pyval)) : list string :=
  (λ _, "json_extract(data, ?)=?") <$> filters.
Definition args_of (filters : list (string * pyval)) : list pyval :=
  '(field, value) ← filters; [PyStr ("$." +:+ field); value].

(** Return all state changes filtered by a named field and value. *)
Definition get_latest_event_by_data_field
    (filters : list (string * pyval)) : M (EventRecord string) :=
  let where_clauses := where_clauses_of filters in
  let args := args_of filters in
  let* cursor :=
    execute_latest_matching
      "SELECT identifier, source_statechange_id, data FROM state_events "
      state_events ev_identifier ev_data
      ("SELECT identifier, source_statechange_id, data FROM state_events WHERE "
       +:+ String.concat " AND " where_clauses
       +:+ "ORDER BY identifier DESC LIMIT 1")
      args in
  let result := mkEventRecord 0 0 None in
  match cursor with
  | row :: _ =>
      ret (mkEventRecord (ev_identifier row) (ev_source_statechange_id row)
                         (Some (ev_data row)))
  | [] => ret result
  end.

(** Return all state changes filtered by a named field and value. *)
Definition get_latest_state_change_by_data_field
    (filters : list (string * pyval)) : M (StateChangeRecord string) :=
  let where_clauses := where_clauses_of filters in
  let args := args_of filters in
  let where_ := String.concat " AND " where_clauses in
  let sql :=
    "SELECT identifier, data " +:+
    "FROM state_changes " +:+
    "WHERE " +:+ where_ +:+ " " +:+
    "ORDER BY identifier " +:+
    "DESC LIMIT 1" in
  let* cursor :=
    execute_latest_matching "SELECT identifier, data FROM state_changes "
      state_changes sc_identifier sc_data sql args in
  let result := mkStateChangeRecord 0 None in
  match cursor with
  | row :: _ =>
      ret (mkStateChangeRecord (sc_identifier row) (Some (sc_data row)))
  | [] => ret result
  end.

End filters.

(** SELECT data FROM state_changes WHERE identifier >= ?
    ORDER BY identifier ASC, and
    SELECT data FROM state_changes WHERE identifier BETWEEN ? AND ?
    ORDER BY identifier ASC *)
Definition get_statechanges_by_identifier
    (from_identifier to_identifier : pyval) : M (list string) :=
  if negb (eq_latest from_identifier || isinstance_int from_identifier) then
    raise (ValueError "from_identifier must be an integer or 'latest'")
  else if negb (eq_latest to_identifier || isinstance_int to_identifier) then
    raise (ValueError "to_identifier must be an integer or 'latest'")
  else
    let* from_identifier :=
      (if eq_latest from_identifier then
         if negb (is_none to_identifier) then raise AssertionError
         else
           let* row := fetch_latest_state_change_identifier in
           match row with
           | Some identifier => ret (PyTuple [PyInt identifier])
           | None => ret PyNone
           end
       else ret from_identifier) in
    let* rows :=
      (if eq_latest to_identifier then
         Engine.select_with1 from_identifier (λ lo d,
           Sql.order_by_asc sc_identifier
             (Sql.where_ (λ r, Sql.ge (Sql.Integer (sc_identifier r)) lo)
                (state_changes d)))
       else
         Engine.select_with2 from_identifier to_identifier (λ lo hi d,
           Sql.order_by_asc sc_identifier
             (Sql.where_ (λ r, Sql.between (Sql.Integer (sc_identifier r)) lo hi)
                (state_changes d)))) in
    ret (sc_data <$> rows).

(** SELECT data, log_time FROM state_events
    ORDER BY identifier ASC LIMIT ? OFFSET ? *)
Definition _query_events (limit offset : pyval) : M (list (string * string)) :=
  if negb (is_none limit) && (negb (isinstance_int limit) || lt_zero limit) then
    raise (InvalidNumberInput "limit must be a positive integer")
  else if negb (is_none offset) && (negb (isinstance_int offset) || lt_zero offset) then
    raise (InvalidNumberInput "offset must be a positive integer")
  else
    let limit := if is_none limit then PyInt (-1) else limit in
    let offset := if is_none offset then PyInt 0 else offset in
    let* cursor := Engine.select_with2 limit offset (λ n k d,
      match n, k with
      | Sql.Integer n, Sql.Integer k =>
          inr ((λ r, (ev_data r, ev_log_time r)) <$>
               Sql.limit_offset n k
                 (Sql.order_by_asc ev_identifier (state_events d)))
      | _, _ => inl (IntegrityError "datatype mismatch")
      end) in
    Engine.fetchall cursor.

Definition get_events_with_timestamps (limit offset : pyval)
    : M (list (TimestampedEvent string)) :=
  let* entries := _query_events limit offset in
  ret ((λ entry, mkTimestampedEvent (fst entry) (snd entry)) <$> entries).

Definition get_events (limit offset : pyval) : M (list string) :=
  let* entries := _query_events limit offset in
  ret (fst <$> entries).

(** SELECT identifier, statechange_id, data FROM state_snapshot; without
    ORDER BY the rows come in identifier order. *)
Definition get_snapshots : M (list SnapshotRecord) :=
  let* snapshots := Engine.select (λ d,
    Sql.order_by_asc snap_identifier (state_snapshot d)) in
  ret ((λ snapshot, mkSnapshotRecord (snap_identifier snapshot)
                      (snap_statechange_id snapshot) (snap_data snapshot))
       <$> snapshots).

(** UPDATE state_snapshot SET data=? WHERE identifier=? *)
Definition update_snapshot (identifier : Z) (new_snapshot : string) : M unit :=
  Engine.dml (λ d,
    Database (settings d) (runs d) (state_changes d)
      ((λ r, if decide (snap_identifier r = identifier)
             then SnapshotRow (snap_identifier r) (snap_statechange_id r) new_snapshot
             else r) <$> state_snapshot d)
      (state_events d)) ;;
  maybe_commit.

(** The context manager: [with storage.transaction(): body]. *)
Definition transaction {A} (body : M A) : M A :=
  set_in_transaction true ;;
  try_finally
    (try_except
       (Engine.execute_BEGIN ;;
        let* a := body in
        Engine.execute_COMMIT ;;
        ret a)
       (λ e, Engine.execute_ROLLBACK ;; raise e))
    (set_in_transaction false).

(** [__init__] on the content found in the file: the schema script
    creates what is missing, then the version is stamped. *)
Definition open_ (d : database) : connection :=
  snd (update_version (Connection d None false)).

End SQLiteStorage.

(** ** class SerializedSQLiteStorage(SQLiteStorage) *)

Module SerializedSQLiteStorage.

Section serializer.

(** [self.serializer], supplied by the caller; [D] is the type of the
    domain objects. *)
Context {D : Type} (serialize : D → string) (deserialize : string → D).

Definition write_state_change (state_change : D) (log_time : string) : M Z :=
  let serialized_data := serialize state_change in
  SQLiteStorage.write_state_change serialized_data log_time.

Definition write_state_snapshot (statechange_id : Z) (snapshot : D) : M Z :=
  let serialized_data := serialize snapshot in
  SQLiteStorage.write_state_snapshot statechange_id serialized_data.

Definition write_events (state_change_identifier : Z) (events : list D)
    (log_time : string) : M unit :=
  let events_data :=
    (λ event, (None, state_change_identifier, log_time, serialize event))
      <$> events in
  SQLiteStorage.write_events state_change_identifier events_data log_time.

Definition get_latest_state_snapshot : M (option (Z * D)) :=
  let* row := SQLiteStorage.get_latest_state_snapshot in
  match row with
  | Some (last_applied_state_change_id, data) =>
      ret (Some (last_applied_state_change_id, deserialize data))
  | None => ret None
  end.

(** [if row[1]:] holds for a payload that is neither [None] nor
    empty. *)
Definition truthy (data : option string) : bool :=
  match data with
  | Some s => negb (String.eqb s "")
  | None => false
  end.

Definition get_snapshot_closest_to_state_change
    (state_change_identifier : pyval) : M (Z * option D) :=
  let* row :=
    SQLiteStorage.get_snapshot_closest_to_state_change state_change_identifier in
  if truthy (snd row) then
    ret (fst row, deserialize <$> snd row)
  else ret (0, None).

Definition get_statechanges_by_identifier
    (from_identifier to_identifier : pyval) : M (list D) :=
  let* state_changes :=
    SQLiteStorage.get_statechanges_by_identifier from_identifier to_identifier in
  ret (deserialize <$> state_changes).

Definition get_events_with_timestamps (limit offset : pyval)
    : M (list (TimestampedEvent D)) :=
  let* events := SQLiteStorage.get_events_with_timestamps limit offset in
  ret ((λ event, mkTimestampedEvent (deserialize (wrapped_event event))
                                    (log_time event)) <$> events).

Definition get_events (limit offset : pyval) : M (list D) :=
  let* events := SQLiteStorage.get_events limit offset in
  ret (deserialize <$> events).

End serializer.

End SerializedSQLiteStorage.

(** ** Vocabulary of the specification *)

(** The specification names three kinds of error.  [InvalidArgument] is
    what the source raises when it checks an argument: [ValueError], a
    failed [assert], and [InvalidNumberInput]. *)
Definition InvalidArgument (e : exn) : Prop :=
  match e with
  | ValueError _ | AssertionError | InvalidNumberInput _ => True
  | _ => False
  end.


(** The result for a snapshot row, and the result when there is none. *)
Definition found (r : snapshot_row) : Z * option string :=
  (snap_statechange_id r, Some (snap_data r)).
Definition not_found : Z * option string := (0, None).

(** In the words of the specification: the snapshot with the greatest
    [state_change_identifier] that is at most the target. *)
Definition closest_snapshot (d : database) (target : Z)
    (result : Z * option string) : Prop :=
  (∃ r, r ∈ state_snapshot d ∧ snap_statechange_id r ≤ target ∧
        (∀ r', r' ∈ state_snapshot d → snap_statechange_id r' ≤ target →
               snap_statechange_id r' ≤ snap_statechange_id r) ∧
        result = found r)
  ∨ ((∀ r, r ∈ state_snapshot d → ¬ snap_statechange_id r ≤ target) ∧
     result = not_found).

(** What the query selects: among the snapshots whose
    [state_change_identifier] is at most the target, the one written last
    (greatest snapshot identifier). *)
Definition last_written_snapshot (d : database) (target : Z)
    (result : Z * option string) : Prop :=
  (∃ r, r ∈ state_snapshot d ∧ snap_statechange_id r ≤ target ∧
        (∀ r', r' ∈ state_snapshot d → snap_statechange_id r' ≤ target →
               snap_identifier r' ≤ snap_identifier r) ∧
        result = found r)
  ∨ ((∀ r, r ∈ state_snapshot d → ¬ snap_statechange_id r ≤ target) ∧
     result = not_found).




(** [n] comparisons joined by [' AND ']. *)
Definition joined (n : nat) : string :=
  String.concat " AND " (replicate n Sql.json_comparison).

Section matching.

Context (json_extract : string → string → Sql.value).





End matching.

(** Identifiers strictly ascending along a table, which is how the engine
    hands them out when no identifier is given. *)
Definition ascending {A} (key : A → Z) (rows : list A) : Prop :=
  StronglySorted (λ a b, key a < key b) rows.

(** The largest identifier in use, 0 in an empty table. *)
Definition largest (used : list Z) : Z := foldr Z.max 0 used.


(** ** Stores used as examples *)

Module Examples.

Import SQLiteStorage.

(** A storage opened on a new file. *)
Definition fresh : connection := open_ empty_database.

Definition after {A} (m : M A) (c : connection) : connection := snd (m c).

(** Three state changes, with identifiers 1, 2 and 3. *)
Definition three_state_changes : connection :=
  after (write_state_change "a" "t1" ;;
         write_state_change "b" "t2" ;;
         write_state_change "c" "t3") fresh.


(** Snapshots written after state changes 1 and 3, in that order. *)
Definition snapshots_after_1_and_3 : connection :=
  after (write_state_snapshot 1 "s1" ;; write_state_snapshot 3 "s3")
        three_state_changes.

(** Five events, with identifiers 1 to 5. *)
Definition five_events : connection :=
  after (write_events 1
           [(None, 1, "t1", "e1"); (None, 1, "t1", "e2"); (None, 2, "t2", "e3");
            (None, 2, "t2", "e4"); (None, 3, "t3", "e5")] "t1")
        three_state_changes.

(** A stand-in for [json_extract] on payloads that are the bare value of
    their field [type]. *)
Definition type_of (data path : string) : Sql.value :=
  if String.eqb path "$.type" then Sql.Text data else Sql.Null.

(** Two state changes whose field [type] is A. *)
Definition two_of_type_A : connection :=
  after (write_state_change "A" "t1" ;; write_state_change "A" "t2") fresh.

(** A scope that appends a state change and then fails before it appends
    the events. *)
Definition failing_scope : M unit :=
  transaction (write_state_change "a" "t1" ;;
               raise (RaisedByCaller "RuntimeError")).

End Examples.

(** * Properties *)

Ltac run :=
  unfold SQLiteStorage.transaction, SQLiteStorage.update_snapshot,
    SQLiteStorage.update_version, SQLiteStorage.write_state_change,
    SQLiteStorage.insert_state_change, SQLiteStorage.get_version,
    SQLiteStorage.maybe_commit, SQLiteStorage.set_in_transaction,
    SQLiteStorage.fetch_latest_state_change_identifier,
    Engine.with_conn, Engine.dml, Engine.begin_if_autocommit, Engine.modify,
    Engine.commit, Engine.rollback, Engine.execute_BEGIN,
    Engine.execute_COMMIT, Engine.execute_ROLLBACK, Engine.select,
    Engine.select_with1, Engine.select_with2, Engine.fetchall,
    try_finally, try_except, bind, ret, raise in *;
  simpl in *.

(** ** Facts about the engine's clauses *)

Section clauses.

Context {A : Type} (key : A → Z).



Lemma order_by_desc_Permutation rows : Sql.order_by_desc key rows ≡ₚ rows.
Proof. apply merge_sort_Permutation. Qed.


Lemma order_by_desc_sorted rows :
  StronglySorted (λ a b, key b ≤ key a) (Sql.order_by_desc key rows).
Proof.
  apply StronglySorted_merge_sort.
  - intros x y z; lia.
  - intros x y; lia.
Qed.

(** [ORDER BY key DESC LIMIT 1] gives nothing on no rows and otherwise
    exactly one row, one with the largest key. *)
Lemma latest_row rows :
  match Sql.limit_offset 1 0 (Sql.order_by_desc key rows) with
  | [] => rows = []
  | r :: rest => rest = [] ∧ r ∈ rows ∧ ∀ x, x ∈ rows → key x ≤ key r
  end.
Proof.
  unfold Sql.limit_offset. simpl.
  pose proof (order_by_desc_Permutation rows) as Hperm.
  pose proof (order_by_desc_sorted rows) as Hsorted.
  destruct (Sql.order_by_desc key rows) as [|r rest]; simpl.
  - apply Permutation_nil_r. by symmetry.
  - rewrite take_0. split; [done|]. split.
    + rewrite <- Hperm. by left.
    + intros x Hx. rewrite <- Hperm in Hx.
      apply StronglySorted_inv in Hsorted as [_ Hall].
      apply elem_of_cons in Hx as [->|Hx]; [lia|].
      rewrite Forall_forall in Hall. by apply Hall.
Qed.

End clauses.


(** The identifier chosen for a new row is above every identifier in
    use. *)
Lemma next_identifier_fresh (used : list Z) (i : Z) :
  i ∈ used → i < Sql.next_identifier used.
Proof.
  unfold Sql.next_identifier.
  induction used as [|u used IH]; intros Hi; [by apply elem_of_nil in Hi|].
  apply elem_of_cons in Hi as [->|Hi]; simpl; [lia|].
  specialize (IH Hi). lia.
Qed.

(** ** Version *)



(** What [update_version] stamps is read back as [RAIDEN_DB_VERSION]. *)
Lemma get_version_after_update_version (c : connection) :
  fst (SQLiteStorage.get_version (snd (SQLiteStorage.update_version c)))
  = inr RAIDEN_DB_VERSION.
Proof.
  run. destruct (journal c), (in_transaction c); simpl;
    by rewrite lookup_insert_eq.
Qed.

(** ** In-place update of a snapshot *)



(** ** Transaction scopes *)

(** Writes that end with [maybe_commit] stay pending inside a scope: when
    the scope fails they are rolled back and the error of the scope is the
    one the caller sees. *)
Lemma transaction_rolls_back_update_snapshot
    (c : connection) (identifier : Z) (new_snapshot : string) (e : exn) :
  journal c = None →
  SQLiteStorage.transaction (A := unit)
    (SQLiteStorage.update_snapshot identifier new_snapshot ;; raise e) c
  = (inl e, Connection (db c) None false).
Proof. intros Hauto. run. by rewrite Hauto. Qed.

(** C1 (the source does not do this): a scope that calls
    [write_state_change] and then raises.  [write_state_change] leaves its
    [with self.conn:] block through a commit, which ends the transaction
    the scope began; the ROLLBACK of the scope then finds no transaction,
    the engine's error replaces the one raised in the scope, and the state
    change stays in the store. *)
Theorem transaction_write_state_change_is_kept
    (c : connection) (state_change log_time : string) (e : exn) :
  journal c = None →
  SQLiteStorage.transaction (A := unit)
    (SQLiteStorage.write_state_change state_change log_time ;; raise e) c
  = (inl (OperationalError "cannot rollback - no transaction is active"),
     Connection
       (Database (settings (db c)) (runs (db c))
          (state_changes (db c) ++
             [StateChangeRow
                (Sql.next_identifier (sc_identifier <$> state_changes (db c)))
                state_change log_time])
          (state_snapshot (db c)) (state_events (db c)))
       None false).
Proof. intros Hauto. run. by rewrite Hauto. Qed.

(** A scope that only calls [write_state_change] fails in the same way:
    its COMMIT finds no transaction either. *)
Lemma transaction_write_state_change_alone
    (c : connection) (state_change log_time : string) :
  journal c = None →
  fst (SQLiteStorage.transaction
         (SQLiteStorage.write_state_change state_change log_time) c)
  = inl (OperationalError "cannot rollback - no transaction is active").
Proof. intros Hauto. run. by rewrite Hauto. Qed.

Lemma transaction_write_state_change_is_kept_witness :
  fst (Examples.failing_scope Examples.fresh)
  = inl (OperationalError "cannot rollback - no transaction is active")
  ∧ state_changes (db (snd (Examples.failing_scope Examples.fresh)))
    = [StateChangeRow 1 "a" "t1"]
  ∧ state_changes (db Examples.fresh) = [].
Proof.
  unfold Examples.failing_scope.
  rewrite (transaction_write_state_change_is_kept Examples.fresh "a" "t1"
             (RaisedByCaller "RuntimeError") eq_refl).
  repeat split.
Defined.

(** ** Range of state changes *)

(** C2: with [from_identifier = 'latest'] and any [to_identifier] other
    than [None] the call fails on the argument check, and the connection is
    left as it was. *)
Theorem get_statechanges_from_latest_rejected
    (c : connection) (to_identifier : pyval) :
  to_identifier ≠ PyNone →
  ∃ e, SQLiteStorage.get_statechanges_by_identifier (PyStr "latest") to_identifier c
       = (inl e, c)
       ∧ InvalidArgument e.
Proof.
  intros Hpresent. unfold SQLiteStorage.get_statechanges_by_identifier.
  destruct to_identifier as [|b|z|m x|s|items]; simpl; try done;
    try (eexists; split; [reflexivity|exact I]).
  destruct (String.eqb s "latest"); simpl; eexists; (split; [reflexivity|exact I]).
Qed.

Lemma get_statechanges_from_latest_rejected_witness :
  ∃ e, SQLiteStorage.get_statechanges_by_identifier (PyStr "latest") (PyInt 2)
         Examples.three_state_changes
       = (inl e, Examples.three_state_changes)
       ∧ InvalidArgument e.
Proof. apply get_statechanges_from_latest_rejected. discriminate. Defined.

(** With [to_identifier] absent the call fails as well, on the check that
    [to_identifier] is an integer or ['latest']. *)
Lemma get_statechanges_from_latest_to_none (c : connection) :
  SQLiteStorage.get_statechanges_by_identifier (PyStr "latest") PyNone c
  = (inl (ValueError "to_identifier must be an integer or 'latest'"), c).
Proof. reflexivity. Qed.

(** ** Snapshot closest to a state change *)









(** When snapshots are written in the order of the state changes they
    follow, the snapshot written last is also the closest one. *)
Lemma last_written_is_closest (d : database) (target : Z) (result : Z * option string) :
  (∀ r r', r ∈ state_snapshot d → r' ∈ state_snapshot d →
           snap_identifier r ≤ snap_identifier r' →
           snap_statechange_id r ≤ snap_statechange_id r') →
  last_written_snapshot d target result → closest_snapshot d target result.
Proof.
  intros Hmono [(r & Hr & Hle & Hmax & ->)|[Hnone ->]]; [left|right; done].
  exists r. repeat split; try done.
  intros r' Hr' Hle'. apply Hmono; auto.
Qed.

(** The cases listed in the specification: state changes 1, 2, 3 and
    snapshots after 1 and 3. *)
Example get_snapshot_closest_to_state_change_cases :
  fst (SQLiteStorage.get_snapshot_closest_to_state_change (PyInt 2)
         Examples.snapshots_after_1_and_3) = inr (1, Some "s1")
  ∧ fst (SQLiteStorage.get_snapshot_closest_to_state_change (PyInt 0)
           Examples.snapshots_after_1_and_3) = inr (0, None)
  ∧ fst (SQLiteStorage.get_snapshot_closest_to_state_change (PyStr "latest")
           Examples.snapshots_after_1_and_3) = inr (3, Some "s3")
  ∧ fst (SQLiteStorage.get_snapshot_closest_to_state_change (PyStr "latest")
           Examples.fresh) = inr (0, None).
Proof. by vm_compute. Qed.


(** The cases listed in the specification. *)
Example get_statechanges_by_identifier_cases :
  fst (SQLiteStorage.get_statechanges_by_identifier (PyInt 1) (PyInt 3)
         Examples.three_state_changes) = inr ["a"; "b"; "c"]
  ∧ fst (SQLiteStorage.get_statechanges_by_identifier (PyInt 2) (PyStr "latest")
           Examples.three_state_changes) = inr ["b"; "c"].
Proof. by vm_compute. Qed.

(** ** Pages of events *)



(** The case listed in the specification: limit 2 and offset 1 over five
    events give the second and the third. *)
Example get_events_with_timestamps_second_and_third :
  fst (SQLiteStorage.get_events_with_timestamps (PyInt 2) (PyInt 1)
         Examples.five_events)
  = inr [mkTimestampedEvent "e2" "t1"; mkTimestampedEvent "e3" "t2"].
Proof. by vm_compute. Qed.

(** ** The serialization boundary *)

Section codec.

Context {D : Type} (serialize : D → string) (deserialize : string → D).

(** Reading a range through the wrapper is reading it from the raw storage
    and decoding every payload. *)
Lemma serialized_get_statechanges_by_identifier
    (c : connection) (from_identifier to_identifier : pyval) :
  SerializedSQLiteStorage.get_statechanges_by_identifier deserialize
    from_identifier to_identifier c
  = match SQLiteStorage.get_statechanges_by_identifier
            from_identifier to_identifier c with
    | (inr payloads, c') => (inr (deserialize <$> payloads), c')
    | (inl e, c') => (inl e, c')
    end.
Proof. reflexivity. Qed.


End codec.


(** ** Latest row matching a set of filters *)

(** *** The text of the statement *)












(** With no clause at all the text after WHERE is not an expression. *)
Lemma prepare_no_clause :
  Sql.prepare "SELECT identifier, source_statechange_id, data FROM state_events "
    ("SELECT identifier, source_statechange_id, data FROM state_events WHERE "
     +:+ joined 0 +:+ "ORDER BY identifier DESC LIMIT 1") = None
  ∧ Sql.prepare "SELECT identifier, data FROM state_changes "
      ("SELECT identifier, data " +:+ "FROM state_changes " +:+
       "WHERE " +:+ joined 0 +:+ " " +:+ "ORDER BY identifier " +:+
       "DESC LIMIT 1") = None.
Proof. by vm_compute. Qed.

(** That refusal is one of syntax, whatever the fuel: what follows WHERE
    does not start with a comparison. *)
Lemma parse_conjunction_no_clause (fuel : nat) :
  Sql.parse_conjunction fuel " ORDER BY identifier DESC LIMIT 1" = None
  ∧ Sql.parse_conjunction fuel "  ORDER BY identifier DESC LIMIT 1" = None.
Proof. by destruct fuel. Qed.

(** *** The arguments and the condition *)

Section matching_facts.

Context (json_extract : string → string → Sql.value).



End matching_facts.

Section latest_matching.

Context (json_extract : string → string → Sql.value).



(** C10: with no filter at all the text of either statement has nothing
    between WHERE and ORDER BY; the engine refuses it, so that the call
    raises instead of returning the last row or the record with identifier
    0.  The connection is left as it was. *)
Theorem get_latest_by_data_field_empty (c : connection) :
  SQLiteStorage.get_latest_event_by_data_field json_extract [] c
  = (inl (OperationalError "syntax error"), c)
  ∧ SQLiteStorage.get_latest_state_change_by_data_field json_extract [] c
    = (inl (OperationalError "syntax error"), c).
Proof. split; reflexivity. Qed.

End latest_matching.



(** The cases listed in the specification: of two state changes of type A
    the later one is found, and none of type B. *)
Example get_latest_state_change_by_data_field_cases :
  fst (SQLiteStorage.get_latest_state_change_by_data_field Examples.type_of
         [("type", PyStr "A")] Examples.two_of_type_A)
  = inr (mkStateChangeRecord 2 (Some "A"))
  ∧ fst (SQLiteStorage.get_latest_state_change_by_data_field Examples.type_of
           [("type", PyStr "B")] Examples.two_of_type_A)
    = inr (mkStateChangeRecord 0 None).
Proof. by vm_compute. Qed.

(** * Further properties of the storage *)

(** ** Tables in ascending order of identifier *)

Section ascending_tables.

Context {A : Type} (key : A → Z).

Lemma ascending_snoc (rows : list A) (r : A) :
  ascending key rows → (∀ x, x ∈ rows → key x < key r) →
  ascending key (rows ++ [r]).
Proof.
  intros Hrows Hr. apply StronglySorted_app_2; [|done|].
  - intros x1 x2 Hx1 Hx2. apply list_elem_of_singleton in Hx2 as ->. auto.
  - repeat constructor.
Qed.





End ascending_tables.

Lemma next_identifier_largest (used : list Z) :
  Sql.next_identifier used = largest used + 1.
Proof. reflexivity. Qed.


Lemma largest_nonneg (used : list Z) : 0 ≤ largest used.
Proof. unfold largest. induction used; simpl; lia. Qed.

(** ** Appending state changes *)

(** What [write_state_change] does to the connection. *)
Lemma write_state_change_appends (c : connection) (state_change log_time : string) :
  SQLiteStorage.write_state_change state_change log_time c
  = (inr (Sql.next_identifier (sc_identifier <$> state_changes (db c))),
     Connection
       (Database (settings (db c)) (runs (db c))
          (state_changes (db c) ++
             [StateChangeRow
                (Sql.next_identifier (sc_identifier <$> state_changes (db c)))
                state_change log_time])
          (state_snapshot (db c)) (state_events (db c)))
       None (in_transaction c)).
Proof. run. by destruct (journal c). Qed.

(** X1: the identifier [write_state_change] returns is positive and above
    every identifier in the table, and the next call returns a larger
    one. *)
Theorem write_state_change_identifiers_increase
    (c : connection) (p1 t1 p2 t2 : string) :
  ∃ i1 i2 c1 c2,
    SQLiteStorage.write_state_change p1 t1 c = (inr i1, c1)
    ∧ SQLiteStorage.write_state_change p2 t2 c1 = (inr i2, c2)
    ∧ (∀ r, r ∈ state_changes (db c) → sc_identifier r < i1)
    ∧ 0 < i1 ∧ i1 < i2.
Proof.
  do 4 eexists. split; [apply write_state_change_appends|].
  split; [apply write_state_change_appends|]. simpl. split; [|split].
  - intros r Hr. apply next_identifier_fresh, list_elem_of_fmap. eauto.
  - rewrite next_identifier_largest.
    pose proof (largest_nonneg (sc_identifier <$> state_changes (db c))). lia.
  - apply next_identifier_fresh. rewrite fmap_app. apply elem_of_app.
    right. by left.
Qed.

(** X2: [count_state_changes] is the number of rows, and one more after
    each [write_state_change]. *)
Theorem count_state_changes_after_write
    (c : connection) (state_change log_time : string) :
  SQLiteStorage.count_state_changes c
  = (inr (Z.of_nat (length (state_changes (db c)))), c)
  ∧ fst (SQLiteStorage.count_state_changes
           (snd (SQLiteStorage.write_state_change state_change log_time c)))
    = inr (Z.of_nat (length (state_changes (db c))) + 1).
Proof.
  split; [done|]. rewrite write_state_change_appends.
  unfold SQLiteStorage.count_state_changes. run.
  rewrite length_app. simpl. f_equal. lia.
Qed.

(** X3: [write_state_change] keeps the state changes in strictly ascending
    order of identifier. *)
Theorem write_state_change_keeps_ascending
    (c : connection) (state_change log_time : string) :
  ascending sc_identifier (state_changes (db c)) →
  ascending sc_identifier
    (state_changes
       (db (snd (SQLiteStorage.write_state_change state_change log_time c)))).
Proof.
  intros Hasc. rewrite write_state_change_appends. simpl.
  apply ascending_snoc; [done|]. intros r Hr. simpl.
  apply next_identifier_fresh, list_elem_of_fmap. eauto.
Qed.

Lemma write_state_change_keeps_ascending_witness :
  ascending sc_identifier
    (state_changes
       (db (snd (SQLiteStorage.write_state_change "d" "t4"
                   Examples.three_state_changes)))).
Proof.
  apply write_state_change_keeps_ascending.
  vm_compute. repeat constructor.
Defined.



(** ** Snapshots *)



(** X5: [get_latest_state_snapshot] returns [None] exactly when there is no
    snapshot, and otherwise the state change identifier and the payload of
    a snapshot whose identifier is the largest; the connection is left as
    it was. *)
Theorem get_latest_state_snapshot_largest_identifier (c : connection) :
  (state_snapshot (db c) = []
   ∧ SQLiteStorage.get_latest_state_snapshot c = (inr None, c))
  ∨ (∃ r, r ∈ state_snapshot (db c)
          ∧ (∀ r', r' ∈ state_snapshot (db c) →
                   snap_identifier r' ≤ snap_identifier r)
          ∧ SQLiteStorage.get_latest_state_snapshot c
            = (inr (Some (snap_statechange_id r, snap_data r)), c)).
Proof.
  unfold SQLiteStorage.get_latest_state_snapshot. run.
  pose proof (latest_row snap_identifier (state_snapshot (db c))) as H.
  destruct (Sql.limit_offset 1 0 _) as [|r rest]; [by left|].
  right. exists r. by destruct H as (_ & Hin & Hmax).
Qed.

Section snapshot_codec.

Context {D : Type} (serialize : D → string) (deserialize : string → D).



End snapshot_codec.



(** ** Scopes *)

(** X8: whatever the body of a scope does, [in_transaction] is off when
    the scope is left. *)
Theorem transaction_resets_in_transaction {A} (body : M A) (c : connection) :
  in_transaction (snd (SQLiteStorage.transaction body c)) = false.
Proof.
  unfold SQLiteStorage.transaction. unfold bind at 1.
  unfold SQLiteStorage.set_in_transaction at 1. unfold try_finally.
  by destruct (try_except _ _ _) as [r c'].
Qed.

(** X9: a scope opened inside a scope does not run its body: its BEGIN is
    refused, its ROLLBACK ends the transaction of the outer scope, whose
    own ROLLBACK then fails.  Nothing is written. *)
Theorem transaction_nested {A} (body : M A) (c : connection) :
  journal c = None →
  SQLiteStorage.transaction (SQLiteStorage.transaction body) c
  = (inl (OperationalError "cannot rollback - no transaction is active"),
     Connection (db c) None false).
Proof. intros Hauto. run. by rewrite Hauto. Qed.

Lemma transaction_nested_witness :
  SQLiteStorage.transaction
    (SQLiteStorage.transaction (SQLiteStorage.write_state_change "a" "t1"))
    Examples.fresh
  = (inl (OperationalError "cannot rollback - no transaction is active"),
     Connection (db Examples.fresh) None false).
Proof. by apply transaction_nested. Defined.



Lemma transaction_rolls_back_update_snapshot_witness :
  SQLiteStorage.transaction (A := unit)
    (SQLiteStorage.update_snapshot 1 "s" ;; raise (RaisedByCaller "RuntimeError"))
    Examples.snapshots_after_1_and_3
  = (inl (RaisedByCaller "RuntimeError"),
     Connection (db Examples.snapshots_after_1_and_3) None false).
Proof. by apply transaction_rolls_back_update_snapshot. Defined.

(** ** Opening *)

(** X13: opening a store that was opened before changes nothing in it. *)
Theorem open_idempotent (d : database) :
  SQLiteStorage.open_ (db (SQLiteStorage.open_ d)) = SQLiteStorage.open_ d.
Proof.
  unfold SQLiteStorage.open_. run. by rewrite insert_insert_eq.
Qed.

(** ** Writes outside a scope *)



(** ** Events *)





Section event_codec.

Context {D : Type} (serialize : D → string) (deserialize : string → D).



End event_codec.







(** ** Updating a snapshot *)




(** ** Arguments that are refused *)



(** ** Reads *)

(** X21: no read method changes the connection, whether it returns or
    raises: none of them opens, commits or rolls back a transaction, so a
    read inside a scope leaves the scope's transaction pending. *)
Theorem reads_leave_connection
    (json_extract : string → string → Sql.value) (c : connection) :
  snd (SQLiteStorage.get_version c) = c
  ∧ snd (SQLiteStorage.count_state_changes c) = c
  ∧ snd (SQLiteStorage.get_latest_state_snapshot c) = c
  ∧ snd (SQLiteStorage.get_snapshots c) = c
  ∧ (∀ v, snd (SQLiteStorage.get_snapshot_closest_to_state_change v c) = c)
  ∧ (∀ a b, snd (SQLiteStorage.get_statechanges_by_identifier a b c) = c)
  ∧ (∀ l o, snd (SQLiteStorage.get_events_with_timestamps l o c) = c)
  ∧ (∀ l o, snd (SQLiteStorage.get_events l o c) = c)
  ∧ (∀ f, snd (SQLiteStorage.get_latest_event_by_data_field json_extract f c) = c)
  ∧ (∀ f, snd (SQLiteStorage.get_latest_state_change_by_data_field
                 json_extract f c) = c).
Proof.
  repeat apply conj; intros;
    unfold SQLiteStorage.count_state_changes,
      SQLiteStorage.get_latest_state_snapshot, SQLiteStorage.get_snapshots,
      SQLiteStorage.get_snapshot_closest_to_state_change,
      SQLiteStorage.get_statechanges_by_identifier,
      SQLiteStorage.get_events_with_timestamps, SQLiteStorage.get_events,
      SQLiteStorage._query_events,
      SQLiteStorage.get_latest_event_by_data_field,
      SQLiteStorage.get_latest_state_change_by_data_field,
      SQLiteStorage.execute_latest_matching, Engine.select_with;
    run; unfold Sql.adapt, Engine.select in *;
    repeat (case_match; simplify_eq/=; try done); done.
Qed.

(** ** Writes that wait for the scope, writes that do not *)





(** ** Version *)

(** X12: [update_version] makes [get_version] return [RAIDEN_DB_VERSION]
    whatever was stored, and touches nothing but the version row. *)
Theorem update_version_then_get_version (c : connection) :
  fst (SQLiteStorage.get_version (snd (SQLiteStorage.update_version c)))
  = inr RAIDEN_DB_VERSION
  ∧ (∀ name, name ≠ "version" →
       settings (db (snd (SQLiteStorage.update_version c))) !! name
       = settings (db c) !! name)
  ∧ runs (db (snd (SQLiteStorage.update_version c))) = runs (db c)
  ∧ state_changes (db (snd (SQLiteStorage.update_version c)))
    = state_changes (db c)
  ∧ state_snapshot (db (snd (SQLiteStorage.update_version c)))
    = state_snapshot (db c)
  ∧ state_events (db (snd (SQLiteStorage.update_version c)))
    = state_events (db c).
Proof.
  destruct c as [d j f]. run.
  destruct j, f; simpl; rewrite lookup_insert_eq; simpl;
    (repeat apply conj; [done| |done..]);
    intros name Hname; by rewrite lookup_insert_ne.
Qed.

(** ** Counting and reading *)


